(** * cc-test/src/cxx11_clang.cpp

    The translation unit is

      #include <memory>

      extern "C"
      void cxx11_clang() {
        std::unique_ptr<int> p;
      }

    It is embedded below as a function in a small monad that threads the
    program's world (free store, process environment, output written so
    far), records the memory events a call performs and can end in a
    fault.  The part of [<memory>] the function uses, [std::unique_ptr<int>]
    with [std::default_delete<int>], is not part of the repository; it is
    modelled separately in [Module Memory]. *)

From Stdlib Require Import ZArith List String.
From stdpp Require Import base option gmap strings.
Import ListNotations.

Local Open Scope string_scope.

(** ** The world a call runs in *)

(** Addresses of objects on the free store. *)
Definition addr := positive.

(** An [int*]: [None] is the null pointer. *)
Definition pointer := option addr.
Definition nullptr : pointer := None.

Record world := World {
  heap : gmap addr Z;            (* live [int] objects of the free store *)
  env  : gmap string string;     (* environment variables of the process *)
  out  : list string             (* what has been written to the outside *)
}.

(** What a call does to memory, in program order. *)
Inductive event :=
  | EvDeref  (a : addr)          (* an object is read through a pointer   *)
  | EvDelete (a : addr).         (* an object is released ([delete])      *)

(** Ways in which a call can fail instead of returning. *)
Inductive fault :=
  | NullDeref                    (* [*p] with [p.get() == nullptr]        *)
  | Dangling  (a : addr)         (* read of an object that is not live    *)
  | BadDelete (a : addr).        (* [delete] of an object that is not live *)

Record outcome (A : Type) := Outcome {
  result : A + fault;
  final  : world;
  trace  : list event
}.
Arguments Outcome {A} _ _ _.
Arguments result {A} _.
Arguments final {A} _.
Arguments trace {A} _.

(** ** The monad of C++ statements *)

Definition M (A : Type) : Type := world -> outcome A.

Definition ret {A} (a : A) : M A := fun w => Outcome (inl a) w [].

Definition throw {A} (f : fault) : M A := fun w => Outcome (inr f) w [].

Definition bind {A B} (m : M A) (k : A -> M B) : M B := fun w =>
  let o := m w in
  match result o with
  | inl a =>
      let o' := k a (final o) in
      Outcome (result o') (final o') (trace o ++ trace o')
  | inr f => Outcome (inr f) (final o) (trace o)
  end.

#[global] Instance M_ret : MRet M := @ret.
#[global] Instance M_bind : MBind M := fun A B k m => bind m k.

(** ** The part of <memory> the unit uses *)

Module Memory.

(** Modelled from the spec: [std::unique_ptr<int>] of the standard header
    [<memory>], which the unit includes and which is not under src/.  The
    spec calls it the exclusive-ownership pointer value: default
    construction yields a pointer that holds no resource (null), and
    destroying it releases the resource it owns exactly once, which for a
    null pointer is nothing. *)
Record unique_ptr := UniquePtr { stored : pointer }.

(** [std::default_delete<int>::operator()]: [delete a]. *)
Definition default_delete (a : addr) : M unit := fun w =>
  match heap w !! a with
  | Some _ => Outcome (inl tt) (World (delete a (heap w)) (env w) (out w))
                      [EvDelete a]
  | None => Outcome (inr (BadDelete a)) w []
  end.

(** [unique_ptr()]: the default constructor. *)
Definition unique_ptr_default : M unique_ptr := ret (UniquePtr nullptr).

(** [get()]. *)
Definition unique_ptr_get (p : unique_ptr) : pointer := stored p.

(** [operator*]. *)
Definition unique_ptr_deref (p : unique_ptr) : M Z :=
  match stored p with
  | None => throw NullDeref
  | Some a => fun w =>
      match heap w !! a with
      | Some v => Outcome (inl v) w [EvDeref a]
      | None => Outcome (inr (Dangling a)) w []
      end
  end.

(** [~unique_ptr()]: calls the deleter on the stored pointer unless it is
    null. *)
Definition unique_ptr_dtor (p : unique_ptr) : M unit :=
  match stored p with
  | None => ret tt
  | Some a => default_delete a
  end.

End Memory.
Import Memory.

(** ** The declaration (lines 5 and 6) *)

Inductive language_linkage := LinkC | LinkCxx.

Inductive name_linkage := External | Internal.

Inductive ctype := Tvoid | Tint | Tpointer (t : ctype).

Record fn_decl := FnDecl {
  fd_lang    : language_linkage;   (* [extern "C"] or the default          *)
  fd_linkage : name_linkage;       (* [static] would make it internal      *)
  fd_ret     : ctype;
  fd_name    : string;
  fd_params  : list ctype
}.

(** [extern "C" void cxx11_clang()]. *)
Definition cxx11_clang_decl : fn_decl :=
  {| fd_lang := LinkC;
     fd_linkage := External;
     fd_ret := Tvoid;
     fd_name := "cxx11_clang";
     fd_params := [] |}.

Definition denote_type (t : ctype) : Type :=
  match t with
  | Tvoid => unit
  | Tint => Z
  | Tpointer _ => pointer
  end.

Fixpoint denote_params (ts : list ctype) : Type :=
  match ts with
  | [] => unit
  | t :: ts' => (denote_type t * denote_params ts')%type
  end.

(** The type of the embedding of a function with a given declaration. *)
Definition fn_sem (d : fn_decl) : Type :=
  denote_params (fd_params d) -> M (denote_type (fd_ret d)).

(** ** The function (lines 6 to 8) *)

(** Line 7 declares [p], which runs the default constructor; the closing
    brace of line 8 ends the scope of [p], which runs its destructor. *)
Definition cxx11_clang : fn_sem cxx11_clang_decl := fun _ =>
  p ← unique_ptr_default;
  unique_ptr_dtor p.

(** [n] calls one after the other. *)
Fixpoint call_n (n : nat) : M unit :=
  match n with
  | O => ret tt
  | S k => _ ← cxx11_clang tt; call_n k
  end.

(** ** Observations *)

(** The environment of a world replaced by another one. *)
Definition with_env (e : gmap string string) (w : world) : world :=
  World (heap w) e (out w).

(** What of a world is not ambient input: the free store and the output. *)
Definition public (w : world) : gmap addr Z * list string :=
  (heap w, out w).

(** Whether a run ended in a fault. *)
Definition raises {A} (o : outcome A) : bool :=
  match result o with
  | inl _ => false
  | inr _ => true
  end.

Definition is_deref (e : event) : bool :=
  match e with EvDeref _ => true | EvDelete _ => false end.

Definition is_delete (e : event) : bool :=
  match e with EvDelete _ => true | EvDeref _ => false end.

(** * Properties *)

(** ** The monad *)

Section MonadLaws.
Context {A B : Type}.

Lemma bind_ret_l (a : A) (k : A -> M B) (w : world) :
  bind (ret a) k w = k a w.
Proof.
  unfold bind, ret; simpl. now destruct (k a w).
Qed.

Lemma bind_throw (f : fault) (k : A -> M B) (w : world) :
  bind (throw f) k w = throw f w.
Proof. reflexivity. Qed.

Lemma bind_returns (m : M A) (k : A -> M B) (w w' : world) (a : A) :
  m w = Outcome (inl a) w' [] -> bind m k w = k a w'.
Proof.
  intros Hm. unfold bind. rewrite Hm. simpl. now destruct (k a w').
Qed.
End MonadLaws.

(** ** The model of [std::unique_ptr<int>] *)

Lemma unique_ptr_default_run (w : world) :
  unique_ptr_default w = Outcome (inl (UniquePtr nullptr)) w [].
Proof. reflexivity. Qed.

Lemma unique_ptr_dtor_null (p : unique_ptr) (w : world) :
  stored p = nullptr -> unique_ptr_dtor p w = Outcome (inl tt) w [].
Proof.
  intros Hp. unfold unique_ptr_dtor. now rewrite Hp.
Qed.

Lemma unique_ptr_dtor_owning (a : addr) (v : Z) (w : world) :
  heap w !! a = Some v ->
  unique_ptr_dtor (UniquePtr (Some a)) w =
  Outcome (inl tt) (World (delete a (heap w)) (env w) (out w)) [EvDelete a].
Proof.
  intros Ha. unfold unique_ptr_dtor, default_delete; simpl. now rewrite Ha.
Qed.

(** A pointer that owns an object does release it, and reading through a
    null pointer is a fault: the events and faults are not vacuous. *)
Example dtor_releases :
  let w := World {[ 5%positive := 42%Z ]} ∅ [] in
  unique_ptr_dtor (UniquePtr (Some 5%positive)) w =
  Outcome (inl tt) (World ∅ ∅ []) [EvDelete 5%positive].
Proof.
  simpl. erewrite unique_ptr_dtor_owning by apply lookup_singleton_eq.
  simpl. now rewrite delete_singleton_eq.
Qed.

Example deref_null_faults (w : world) :
  result (unique_ptr_deref (UniquePtr nullptr) w) = inr NullDeref.
Proof. reflexivity. Qed.

(** ** The function *)

(** One call, from any world. *)
Lemma cxx11_clang_run (u : unit) (w : world) :
  cxx11_clang u w = Outcome (inl tt) w [].
Proof.
  unfold cxx11_clang, mbind, M_bind.
  rewrite (bind_returns _ _ _ _ _ (unique_ptr_default_run w)).
  now apply unique_ptr_dtor_null.
Qed.

Lemma call_n_run (n : nat) (w : world) :
  call_n n w = Outcome (inl tt) w [].
Proof.
  induction n as [|n IH]; simpl.
  - reflexivity.
  - unfold mbind, M_bind.
    rewrite (bind_returns _ _ _ _ _ (cxx11_clang_run tt w)). exact IH.
Qed.

(** * The claims *)

(** C1. Every call of [cxx11_clang] returns at once with no effect: it
    returns [tt], leaves the world as it found it and performs no event; and
    any number [n] of calls in a row is the same computation as one call and
    as no call at all. *)
Theorem cxx11_clang_idempotent_noop (n : nat) (w : world) :
  cxx11_clang tt w = Outcome (inl tt) w [] /\
  call_n n w = call_n 1 w /\
  call_n n w = call_n 0 w.
Proof.
  split; [apply cxx11_clang_run|].
  now rewrite !call_n_run.
Qed.

(** C2. In every run of [cxx11_clang], from any world [w], the pointer [p]
    that line 7 declares is the default-constructed one, its stored pointer
    is null, the run reads through no pointer (no [EvDeref] event), and the
    destructor of [p] at the end of the scope releases nothing (no
    [EvDelete] event, the world unchanged). *)
Theorem cxx11_clang_p_null_untouched (w : world) :
  exists p : unique_ptr,
    unique_ptr_default w = Outcome (inl p) w [] /\
    cxx11_clang tt w = unique_ptr_dtor p w /\
    unique_ptr_get p = nullptr /\
    existsb is_deref (trace (cxx11_clang tt w)) = false /\
    existsb is_delete (trace (cxx11_clang tt w)) = false /\
    unique_ptr_dtor p w = Outcome (inl tt) w [].
Proof.
  exists (UniquePtr nullptr).
  rewrite cxx11_clang_run.
  repeat split; reflexivity.
Qed.

(** C3. [cxx11_clang] takes no parameters and returns no value: its
    declaration has an empty parameter list and return type [void], so the
    embedded function has input type [unit] and result type [unit]. *)
Theorem cxx11_clang_signature :
  fd_params cxx11_clang_decl = [] /\
  fd_ret cxx11_clang_decl = Tvoid /\
  fn_sem cxx11_clang_decl = (unit -> M unit) /\
  exists f : unit -> M unit, f = cxx11_clang.
Proof.
  repeat split; try reflexivity.
  now exists cxx11_clang.
Qed.

(** C5. Two runs of [cxx11_clang] have the same observable outcome: from
    any two worlds the result and the events are the same and each run
    leaves its world as it was; in particular two runs from the same world
    are equal in everything. *)
Theorem cxx11_clang_deterministic (w1 w2 : world) :
  result (cxx11_clang tt w1) = result (cxx11_clang tt w2) /\
  trace (cxx11_clang tt w1) = trace (cxx11_clang tt w2) /\
  final (cxx11_clang tt w1) = w1 /\
  final (cxx11_clang tt w2) = w2.
Proof.
  rewrite !cxx11_clang_run. repeat split; reflexivity.
Qed.

(** C6. The outcome of [cxx11_clang] does not depend on the environment:
    two runs from worlds that differ only in their environment variables
    give the same result, the same events and final worlds with the same
    free store and output, and neither run changes its environment. *)
Theorem cxx11_clang_env_noninterference
    (w : world) (e1 e2 : gmap string string) :
  let o1 := cxx11_clang tt (with_env e1 w) in
  let o2 := cxx11_clang tt (with_env e2 w) in
  result o1 = result o2 /\
  trace o1 = trace o2 /\
  public (final o1) = public (final o2) /\
  env (final o1) = e1 /\ env (final o2) = e2.
Proof.
  cbv zeta. rewrite !cxx11_clang_run. repeat split; reflexivity.
Qed.

(** C7. Every call of [cxx11_clang] terminates: the embedded function is
    total, and on every argument and world it returns a value rather than a
    fault, having performed no event. *)
Theorem cxx11_clang_terminates (u : unit) (w : world) :
  exists (v : unit) (w' : world),
    cxx11_clang u w = Outcome (inl v) w' [].
Proof.
  exists tt, w. apply cxx11_clang_run.
Qed.

(** C9. [cxx11_clang] never raises an error: from no world does a call end
    in a fault; its result is always the returned value [tt].  Neither the
    default constructor nor the destructor of a null pointer can fault. *)
Theorem cxx11_clang_no_fault (w : world) :
  raises (cxx11_clang tt w) = false /\
  result (cxx11_clang tt w) = inl tt /\
  raises (unique_ptr_default w) = false /\
  raises (unique_ptr_dtor (UniquePtr nullptr) w) = false.
Proof.
  rewrite cxx11_clang_run. repeat split; reflexivity.
Qed.

(** C10. A call of [cxx11_clang] leaves the whole world unchanged: for
    every starting world the world after the call is the world before it,
    free store, environment and output included. *)
Theorem cxx11_clang_frame (w : world) :
  final (cxx11_clang tt w) = w /\
  heap (final (cxx11_clang tt w)) = heap w /\
  env (final (cxx11_clang tt w)) = env w /\
  out (final (cxx11_clang tt w)) = out w.
Proof.
  rewrite cxx11_clang_run. repeat split; reflexivity.
Qed.


(** * Further properties of the function *)

(** X1. A call of [cxx11_clang] is neutral wherever it stands in a
    sequence: for every computation [m] and every continuation [k], running
    [m], then the call, then [k] on the value of [m] has the same outcome
    (result, final world and events) as running [m] and then [k], also when
    [m] or [k] ends in a fault. *)
Theorem cxx11_clang_neutral_in_sequence
    {A B : Type} (m : M A) (k : A -> M B) (w : world) :
  (a ← m; _ ← cxx11_clang tt; k a) w = (a ← m; k a) w.
Proof.
  unfold mbind, M_bind.
  assert (Hk : forall (a : A) (w' : world),
             bind (cxx11_clang tt) (fun _ => k a) w' = k a w').
  { intros a w'.
    exact (@bind_returns unit B (cxx11_clang tt) (fun _ => k a) w' w' tt
             (cxx11_clang_run tt w')). }
  unfold bind at 1 3.
  destruct (m w) as [[a|f] w' t]; cbn [result final trace];
    [|reflexivity].
  now rewrite Hk.
Qed.
